(** * The Azure AI Foundry agent notebook: [bing_example]

    A shallow embedding of the one function of the repository,
    [bing_example] of
    [python/packages/autogen-core/docs/src/user-guide/extensions-user-guide/azure-foundry-agent.ipynb],
    and the properties of its interaction with the Azure SDK and the
    AutoGen agent classes.

    The function is straight-line glue: two nested [async with] scopes, a
    resource lookup, the construction of the tool, of the agent and of the
    cancellation token, one [on_messages] call and a [print].  Everything it calls lives outside the repository, so the
    external layer is an interface ([SDK]) whose operations may return,
    raise and change the outside world in any way; the theorems hold for
    every implementation of that interface.  What the function does is
    observed from the other side of that interface: the external layer is
    wrapped so that each of its operations, when it is invoked, writes down
    the arguments it received and what it gave back ([recording]), and the
    theorems are about the list of calls written down that way and about
    the outcome of the function. *)

From Stdlib Require Import ZArith Sorted.
From stdpp Require Import base strings gmap list.

Local Open Scope Z_scope.
Local Open Scope string_scope.
Local Open Scope list_scope.

(** ** Data *)

(** [TextMessage(content=..., source=...)] of [autogen_agentchat.messages]:
    a message is its text and the tag of who sent it. *)
Record TextMessage : Type := mkTextMessage {
  content : string;
  source : string;
}.

(** [os.getenv(key, default)]: the value of the variable when it is set,
    [default] otherwise.  [environ] is the process environment after
    [dotenv.load_dotenv()]. *)
Definition getenv (environ : gmap string string) (key default_value : string) : string :=
  default default_value (environ !! key).

(** The outcome of an external call (and of the function itself): the call
    raises an exception or returns a value. *)
Inductive result (Exn A : Type) : Type :=
| Raised (e : Exn)
| Returned (a : A).
Arguments Raised {Exn A} e.
Arguments Returned {Exn A} a.

(** The keyword arguments of [AzureAIAgent(...)]. *)
Record AgentConfig (ProjectClient ToolDefs : Type) : Type := mkAgentConfig {
  name : string;
  description : string;
  project_client : ProjectClient;
  deployment_name : string;
  instructions : string;
  tools : ToolDefs;
  metadata : gmap string string;
}.
Arguments mkAgentConfig {ProjectClient ToolDefs}.
Arguments name {ProjectClient ToolDefs}.
Arguments description {ProjectClient ToolDefs}.
Arguments project_client {ProjectClient ToolDefs}.
Arguments deployment_name {ProjectClient ToolDefs}.
Arguments instructions {ProjectClient ToolDefs}.
Arguments tools {ProjectClient ToolDefs}.
Arguments metadata {ProjectClient ToolDefs}.

(** ** The external layer *)

(** The classes and functions [bing_example] imports.  Objects of the
    external classes are opaque ([Credential], [ProjectClient], ...); [W] is
    the state of everything outside the function (network, services, the
    objects' internals, standard output).  Every operation takes the world,
    returns or raises, and leaves a new world.  [__aexit__] receives the
    exception in flight ([None] on the normal path) and answers whether to
    swallow it, as the context-manager protocol has it. *)
Record SDK (Exn Credential ProjectClient Connection ConnId BingTool ToolDefs
            Agent Token Response W : Type) : Type := mkSDK {
  DefaultAzureCredential : W → result Exn Credential * W;
  credential_aenter : Credential → W → result Exn Credential * W;
  credential_aexit : Credential → option Exn → W → result Exn bool * W;
  AIProjectClient : Credential → string → W → result Exn ProjectClient * W;
  client_aenter : ProjectClient → W → result Exn ProjectClient * W;
  client_aexit : ProjectClient → option Exn → W → result Exn bool * W;
  connections_get : ProjectClient → string → W → result Exn Connection * W;
  connection_id : Connection → W → result Exn ConnId * W;
  BingGroundingTool : ConnId → W → result Exn BingTool * W;
  definitions : BingTool → W → result Exn ToolDefs * W;
  AzureAIAgent : AgentConfig ProjectClient ToolDefs → W → result Exn Agent * W;
  CancellationToken : W → result Exn Token * W;
  on_messages : Agent → list TextMessage → Token → Z → W → result Exn Response * W;
  print : Response → W → result Exn unit * W;
}.
Arguments DefaultAzureCredential {Exn Credential ProjectClient Connection ConnId BingTool ToolDefs
  Agent Token Response W}.
Arguments credential_aenter {Exn Credential ProjectClient Connection ConnId BingTool ToolDefs
  Agent Token Response W}.
Arguments credential_aexit {Exn Credential ProjectClient Connection ConnId BingTool ToolDefs
  Agent Token Response W}.
Arguments AIProjectClient {Exn Credential ProjectClient Connection ConnId BingTool ToolDefs
  Agent Token Response W}.
Arguments client_aenter {Exn Credential ProjectClient Connection ConnId BingTool ToolDefs
  Agent Token Response W}.
Arguments client_aexit {Exn Credential ProjectClient Connection ConnId BingTool ToolDefs
  Agent Token Response W}.
Arguments connections_get {Exn Credential ProjectClient Connection ConnId BingTool ToolDefs
  Agent Token Response W}.
Arguments connection_id {Exn Credential ProjectClient Connection ConnId BingTool ToolDefs
  Agent Token Response W}.
Arguments BingGroundingTool {Exn Credential ProjectClient Connection ConnId BingTool ToolDefs
  Agent Token Response W}.
Arguments definitions {Exn Credential ProjectClient Connection ConnId BingTool ToolDefs
  Agent Token Response W}.
Arguments AzureAIAgent {Exn Credential ProjectClient Connection ConnId BingTool ToolDefs
  Agent Token Response W}.
Arguments CancellationToken {Exn Credential ProjectClient Connection ConnId BingTool ToolDefs
  Agent Token Response W}.
Arguments on_messages {Exn Credential ProjectClient Connection ConnId BingTool ToolDefs
  Agent Token Response W}.
Arguments print {Exn Credential ProjectClient Connection ConnId BingTool ToolDefs
  Agent Token Response W}.
Arguments mkSDK {Exn Credential ProjectClient Connection ConnId BingTool ToolDefs
  Agent Token Response W}.


Section Glue.
Context {Exn Credential ProjectClient Connection ConnId BingTool ToolDefs
         Agent Token Response W : Type}.

Local Abbreviation Sdk :=
  (SDK Exn Credential ProjectClient Connection ConnId BingTool ToolDefs
       Agent Token Response W).
Local Abbreviation res := (result Exn).
Local Abbreviation Config := (AgentConfig ProjectClient ToolDefs).

(** *** The monad of the glue: world passing and exceptions *)

Definition Glue (A : Type) : Type := W → res A * W.

Definition ret {A} (a : A) : Glue A := λ w, (Returned a, w).

Definition raise {A} (e : Exn) : Glue A := λ w, (Raised e, w).

Definition bind {A B} (m : Glue A) (k : A → Glue B) : Glue B :=
  λ w,
    match m w with
    | (Raised e, w1) => (Raised e, w1)
    | (Returned a, w1) => k a w1
    end.

(** [try: m  except e: handler e  else: continue a]. *)
Definition try_except_else {A B} (m : Glue A)
    (handler : Exn → Glue B) (continue : A → Glue B) : Glue B :=
  λ w,
    match m w with
    | (Raised e, w1) => handler e w1
    | (Returned a, w1) => continue a w1
    end.

Notation "x <- m ;; k" := (bind m (λ x, k))
  (at level 100, m at next level, right associativity).

(** [async with manager_expr as value: body].  The manager expression is
    evaluated and entered; an exception of either propagates without any
    exit.  When the body raises, [__aexit__] is awaited with the
    exception, which is re-raised unless the answer is true; when the
    body completes, [__aexit__] is awaited with [None] and its answer is
    dropped. *)
Definition async_with {Mgr V} (manager_expr : Glue Mgr)
    (aenter : Mgr → Glue V) (aexit : Mgr → option Exn → Glue bool)
    (body : V → Glue unit) : Glue unit :=
  manager <- manager_expr ;;
  value <- aenter manager ;;
  try_except_else (body value)
    (λ e, swallow <- aexit manager (Some e) ;;
          if swallow : bool then ret tt else raise e)
    (λ _, _ <- aexit manager None ;; ret tt).

(** *** The function *)

Variable sdk : Sdk.
Variable environ : gmap string string.

(** The message of the exchange. *)
Definition question : TextMessage :=
  {| content := "What is Microsoft's annual leave policy? Provide citations for your answers.";
     source := "user" |}.

(** The keyword arguments the agent is built from. *)
Definition agent_config (client : ProjectClient) (tool_definitions : ToolDefs) : Config :=
  {| name := "bing_agent";
     description := "An AI assistant with Bing grounding";
     project_client := client;
     deployment_name := "gpt-4o";
     instructions := "You are a helpful assistant.";
     tools := tool_definitions;
     metadata := {[ "source" := "AzureAIAgent" ]} |}.

(** The block under the two [async with]. *)
Definition bing_example_body (client : ProjectClient) : Glue unit :=
  let conn_name := getenv environ "BING_CONNECTION_NAME" "" in
  conn <- connections_get sdk client conn_name ;;
  conn_id <- connection_id sdk conn ;;
  bing_tool <- BingGroundingTool sdk conn_id ;;
  tool_definitions <- definitions sdk bing_tool ;;
  let config := agent_config client tool_definitions in
  agent_with_bing_grounding <- AzureAIAgent sdk config ;;
  let messages := [question] in
  cancellation_token <- CancellationToken sdk ;;
  response <-
    on_messages sdk agent_with_bing_grounding messages cancellation_token 5 ;;
  print sdk response.

Definition bing_example : Glue unit :=
  async_with
    (DefaultAzureCredential sdk)
    (credential_aenter sdk)
    (credential_aexit sdk)
    (λ credential,
       let endpoint := getenv environ "AZURE_PROJECT_ENDPOINT" "" in
       async_with
         (AIProjectClient sdk credential endpoint)
         (client_aenter sdk)
         (client_aexit sdk)
         bing_example_body).

End Glue.

(** ** Observing the function from the external layer *)

Section Observation.
Context {Exn Credential ProjectClient Connection ConnId BingTool ToolDefs
         Agent Token Response W : Type}.

Local Abbreviation Sdk :=
  (SDK Exn Credential ProjectClient Connection ConnId BingTool ToolDefs
       Agent Token Response W).
Local Abbreviation res := (result Exn).
Local Abbreviation Config := (AgentConfig ProjectClient ToolDefs).

(** One call as the external layer received it: the operation, the
    arguments it was given and what it gave back. *)
Inductive Event : Type :=
| EDefaultAzureCredential (r : res Credential)
| ECredentialEnter (manager : Credential) (r : res Credential)
| EAIProjectClient (credential : Credential) (endpoint : string) (r : res ProjectClient)
| EClientEnter (manager : ProjectClient) (r : res ProjectClient)
| EConnectionsGet (client : ProjectClient) (conn_name : string) (r : res Connection)
| EConnectionId (conn : Connection) (r : res ConnId)
| EBingGroundingTool (conn_id : ConnId) (r : res BingTool)
| EDefinitions (tool : BingTool) (r : res ToolDefs)
| EAzureAIAgent (config : Config) (r : res Agent)
| ECancellationToken (r : res Token)
| EOnMessages (agent : Agent) (messages : list TextMessage)
              (cancellation_token : Token) (message_limit : Z) (r : res Response)
| EPrint (value : Response) (r : res unit)
| EClientExit (manager : ProjectClient) (exc : option Exn) (r : res bool)
| ECredentialExit (manager : Credential) (exc : option Exn) (r : res bool).

(** An operation that writes itself down: it runs [op] on the world and
    appends to the journal kept beside the world what it was and what it
    gave back. *)
Definition record {A} (event : res A → Event) (op : W → res A * W)
    : W * list Event → res A * (W * list Event) :=
  λ '(w, journal),
    let '(r, w1) := op w in (r, (w1, journal ++ [event r])).

(** The external layer [sdk] with a journal: every operation behaves as
    that of [sdk] and writes down the arguments it received and its
    result.  The function has no access to the journal; what is in it
    after a run is what the external layer was really asked to do. *)
Definition recording (sdk : Sdk)
  : SDK Exn Credential ProjectClient Connection ConnId BingTool ToolDefs
        Agent Token Response (W * list Event) :=
  {| DefaultAzureCredential :=
       record EDefaultAzureCredential (DefaultAzureCredential sdk);
     credential_aenter manager :=
       record (ECredentialEnter manager) (credential_aenter sdk manager);
     credential_aexit manager exc :=
       record (ECredentialExit manager exc) (credential_aexit sdk manager exc);
     AIProjectClient credential endpoint :=
       record (EAIProjectClient credential endpoint)
              (AIProjectClient sdk credential endpoint);
     client_aenter manager :=
       record (EClientEnter manager) (client_aenter sdk manager);
     client_aexit manager exc :=
       record (EClientExit manager exc) (client_aexit sdk manager exc);
     connections_get client conn_name :=
       record (EConnectionsGet client conn_name)
              (connections_get sdk client conn_name);
     connection_id conn :=
       record (EConnectionId conn) (connection_id sdk conn);
     BingGroundingTool conn_id :=
       record (EBingGroundingTool conn_id) (BingGroundingTool sdk conn_id);
     definitions tool :=
       record (EDefinitions tool) (definitions sdk tool);
     AzureAIAgent config :=
       record (EAzureAIAgent config) (AzureAIAgent sdk config);
     CancellationToken :=
       record ECancellationToken (CancellationToken sdk);
     on_messages agent messages cancellation_token message_limit :=
       record (EOnMessages agent messages cancellation_token message_limit)
              (on_messages sdk agent messages cancellation_token message_limit);
     print value :=
       record (EPrint value) (print sdk value) |}.

Variable sdk : Sdk.
Variable environ : gmap string string.

(** An execution of [bing_example] from the world [w], observed: its
    outcome, the world it leaves, and the calls the external layer wrote
    down, in the order it received them. *)
Definition observe (w : W) : res unit * W * list Event :=
  let '(r, (w1, journal)) := bing_example (recording sdk) environ (w, []) in
  (r, w1, journal).

(** *** The parts of an observed execution *)

Definition outcome {A} (run : res A * W * list Event) : res A := run.1.1.
Definition final_world {A} (run : res A * W * list Event) : W := run.1.2.
Definition trace {A} (run : res A * W * list Event) : list Event := run.2.

(** The exception of a result, [None] when it returned. *)
Definition exception_of {A} (r : res A) : option Exn :=
  match r with
  | Raised e => Some e
  | Returned _ => None
  end.

(** The exception a call raised. *)
Definition raised_by (ev : Event) : option Exn :=
  match ev with
  | EDefaultAzureCredential r => exception_of r
  | ECredentialEnter _ r => exception_of r
  | EAIProjectClient _ _ r => exception_of r
  | EClientEnter _ r => exception_of r
  | EConnectionsGet _ _ r => exception_of r
  | EConnectionId _ r => exception_of r
  | EBingGroundingTool _ r => exception_of r
  | EDefinitions _ r => exception_of r
  | EAzureAIAgent _ r => exception_of r
  | ECancellationToken r => exception_of r
  | EOnMessages _ _ _ _ r => exception_of r
  | EPrint _ r => exception_of r
  | EClientExit _ _ r => exception_of r
  | ECredentialExit _ _ r => exception_of r
  end.

Definition is_exit (ev : Event) : bool :=
  match ev with
  | EClientExit _ _ _ | ECredentialExit _ _ _ => true
  | _ => false
  end.

Definition is_agent_construction (ev : Event) : bool :=
  match ev with
  | EAzureAIAgent _ _ => true
  | _ => false
  end.

Definition is_on_messages (ev : Event) : bool :=
  match ev with
  | EOnMessages _ _ _ _ _ => true
  | _ => false
  end.

(** An exit that releases and nothing else: it returns a false answer. *)
Definition plain_release (ev : Event) : Prop :=
  match ev with
  | EClientExit _ _ r | ECredentialExit _ _ r => r = Returned false
  | _ => True
  end.

(** The place of a call in the text of the function. *)
Definition step_number (ev : Event) : nat :=
  match ev with
  | EDefaultAzureCredential _ => 1
  | ECredentialEnter _ _ => 2
  | EAIProjectClient _ _ _ => 3
  | EClientEnter _ _ => 4
  | EConnectionsGet _ _ _ => 5
  | EConnectionId _ _ => 6
  | EBingGroundingTool _ _ => 7
  | EDefinitions _ _ => 8
  | EAzureAIAgent _ _ => 9
  | ECancellationToken _ => 10
  | EOnMessages _ _ _ _ _ => 11
  | EPrint _ _ => 12
  | EClientExit _ _ _ => 13
  | ECredentialExit _ _ _ => 14
  end%nat.

(** What is in flight after an [__aexit__] awaited with [exc] gave
    [answer]: the exit's own exception when it raised; nothing when the
    body had completed or the exit asked to swallow; [exc] otherwise. *)
Definition in_flight (exc : option Exn) (answer : res bool) : option Exn :=
  match answer with
  | Raised e' => Some e'
  | Returned swallow =>
      match exc with
      | Some e => if swallow then None else Some e
      | None => None
      end
  end.

(** How a statement ends with [exc] in flight. *)
Definition completion (exc : option Exn) : res unit :=
  match exc with
  | Some e => Raised e
  | None => Returned tt
  end.

(** The exception an exit was awaited with. *)
Definition handed_to_exit (ev : Event) : option Exn :=
  match ev with
  | EClientExit _ exc _ | ECredentialExit _ exc _ => exc
  | _ => None
  end.

(** How many of the calls [t] are of the given kind. *)
Definition calls_of (kind : Event → bool) (t : list Event) : nat :=
  length (List.filter kind t).

(** Exactly one exchange with the agent: [on_messages] is called exactly
    once among the calls [t], and the message sequence of a call holds
    exactly one message. *)
Definition exactly_one_exchange (t : list Event) : Prop :=
  calls_of is_on_messages t = 1%nat
  ∧ ∀ agent messages token limit r,
      EOnMessages agent messages token limit r ∈ t → length messages = 1%nat.

(** *** The executions of the function, as a relation

    [BodyRun client r t]: the block under the scopes, run with [client],
    ends with [r] after the calls [t].  One rule per call that can raise,
    one for the block running to its end. *)
Abbreviation conn_name_of_environ := (getenv environ "BING_CONNECTION_NAME" "").
Abbreviation endpoint_of_environ := (getenv environ "AZURE_PROJECT_ENDPOINT" "").

Inductive BodyRun (client : ProjectClient) : res unit → list Event → Prop :=
| lookup_raises e :
    BodyRun client (Raised e)
      [EConnectionsGet client conn_name_of_environ (Raised e)]
| connection_id_raises conn e :
    BodyRun client (Raised e)
      [EConnectionsGet client conn_name_of_environ (Returned conn);
       EConnectionId conn (Raised e)]
| tool_raises conn conn_id e :
    BodyRun client (Raised e)
      [EConnectionsGet client conn_name_of_environ (Returned conn);
       EConnectionId conn (Returned conn_id);
       EBingGroundingTool conn_id (Raised e)]
| definitions_raises conn conn_id tool e :
    BodyRun client (Raised e)
      [EConnectionsGet client conn_name_of_environ (Returned conn);
       EConnectionId conn (Returned conn_id);
       EBingGroundingTool conn_id (Returned tool);
       EDefinitions tool (Raised e)]
| agent_raises conn conn_id tool defs e :
    BodyRun client (Raised e)
      [EConnectionsGet client conn_name_of_environ (Returned conn);
       EConnectionId conn (Returned conn_id);
       EBingGroundingTool conn_id (Returned tool);
       EDefinitions tool (Returned defs);
       EAzureAIAgent (agent_config client defs) (Raised e)]
| token_raises conn conn_id tool defs agent e :
    BodyRun client (Raised e)
      [EConnectionsGet client conn_name_of_environ (Returned conn);
       EConnectionId conn (Returned conn_id);
       EBingGroundingTool conn_id (Returned tool);
       EDefinitions tool (Returned defs);
       EAzureAIAgent (agent_config client defs) (Returned agent);
       ECancellationToken (Raised e)]
| on_messages_raises conn conn_id tool defs agent token e :
    BodyRun client (Raised e)
      [EConnectionsGet client conn_name_of_environ (Returned conn);
       EConnectionId conn (Returned conn_id);
       EBingGroundingTool conn_id (Returned tool);
       EDefinitions tool (Returned defs);
       EAzureAIAgent (agent_config client defs) (Returned agent);
       ECancellationToken (Returned token);
       EOnMessages agent [question] token 5 (Raised e)]
| print_raises conn conn_id tool defs agent token response e :
    BodyRun client (Raised e)
      [EConnectionsGet client conn_name_of_environ (Returned conn);
       EConnectionId conn (Returned conn_id);
       EBingGroundingTool conn_id (Returned tool);
       EDefinitions tool (Returned defs);
       EAzureAIAgent (agent_config client defs) (Returned agent);
       ECancellationToken (Returned token);
       EOnMessages agent [question] token 5 (Returned response);
       EPrint response (Raised e)]
| body_completes conn conn_id tool defs agent token response :
    BodyRun client (Returned tt)
      [EConnectionsGet client conn_name_of_environ (Returned conn);
       EConnectionId conn (Returned conn_id);
       EBingGroundingTool conn_id (Returned tool);
       EDefinitions tool (Returned defs);
       EAzureAIAgent (agent_config client defs) (Returned agent);
       ECancellationToken (Returned token);
       EOnMessages agent [question] token 5 (Returned response);
       EPrint response (Returned tt)].

(** [Run r t]: the function ends with [r] after the calls [t].  A scope
    whose manager cannot be built or entered is never exited; a scope
    that was entered is exited with what is in flight. *)
Inductive Run : res unit → list Event → Prop :=
| credential_raises e :
    Run (Raised e) [EDefaultAzureCredential (Raised e)]
| credential_enter_raises manager e :
    Run (Raised e)
      [EDefaultAzureCredential (Returned manager);
       ECredentialEnter manager (Raised e)]
| client_raises manager credential e answer :
    Run (completion (in_flight (Some e) answer))
      [EDefaultAzureCredential (Returned manager);
       ECredentialEnter manager (Returned credential);
       EAIProjectClient credential endpoint_of_environ (Raised e);
       ECredentialExit manager (Some e) answer]
| client_enter_raises manager credential client_manager e answer :
    Run (completion (in_flight (Some e) answer))
      [EDefaultAzureCredential (Returned manager);
       ECredentialEnter manager (Returned credential);
       EAIProjectClient credential endpoint_of_environ (Returned client_manager);
       EClientEnter client_manager (Raised e);
       ECredentialExit manager (Some e) answer]
| body_ran manager credential client_manager client r body_events
           client_answer credential_answer :
    BodyRun client r body_events →
    let after_client := in_flight (exception_of r) client_answer in
    Run (completion (in_flight after_client credential_answer))
      ([EDefaultAzureCredential (Returned manager);
        ECredentialEnter manager (Returned credential);
        EAIProjectClient credential endpoint_of_environ (Returned client_manager);
        EClientEnter client_manager (Returned client)]
       ++ body_events
       ++ [EClientExit client_manager (exception_of r) client_answer;
           ECredentialExit manager after_client credential_answer]).

(** *** More observations *)

Definition is_client_exit (ev : Event) : bool :=
  match ev with
  | EClientExit _ _ _ => true
  | _ => false
  end.

Definition is_credential_exit (ev : Event) : bool :=
  match ev with
  | ECredentialExit _ _ _ => true
  | _ => false
  end.

Definition is_print (ev : Event) : bool :=
  match ev with
  | EPrint _ _ => true
  | _ => false
  end.

(** What a call leaves in flight: what it raised, and for an exit what
    remains of the exception it was awaited with. *)
Definition left_in_flight (ev : Event) : option Exn :=
  match ev with
  | EClientExit _ exc r | ECredentialExit _ exc r => in_flight exc r
  | _ => raised_by ev
  end.

(** An exit that was awaited with an exception and asked to swallow it. *)
Definition swallows (ev : Event) : bool :=
  match ev with
  | EClientExit _ (Some _) (Returned true)
  | ECredentialExit _ (Some _) (Returned true) => true
  | _ => false
  end.


(** Every failure reaches the caller: whenever a call of the execution
    raised, the caller gets that very exception. *)
Definition every_failure_reaches_caller (run : res unit * W * list Event) : Prop :=
  ∀ ev e, ev ∈ trace run → raised_by ev = Some e → outcome run = Raised e.

End Observation.


(** ** A mock of the external layer

    Objects are strings and records, the world is the journal of what the
    mock was asked to do.  [faults] makes chosen operations raise,
    [resources] is the set of connection names that exist, and
    [on_messages] answers the question of the notebook with a fixed
    response. *)
Module Mock.

Inductive Op : Type :=
| OpCredential | OpCredentialEnter | OpCredentialExit
| OpClient | OpClientEnter | OpClientExit
| OpConnectionId | OpBingGroundingTool | OpDefinitions
| OpAzureAIAgent | OpCancellationToken | OpOnMessages | OpPrint.

#[global] Instance Op_eq_dec : EqDecision Op.
Proof. solve_decision. Defined.

#[global] Instance TextMessage_eq_dec : EqDecision TextMessage.
Proof. solve_decision. Defined.

Definition World : Type := list string.
Definition Handle : Type := AgentConfig string (list string).

Definition canned_response : string :=
  "Microsoft's leave policy ... [1] https://example.invalid/leave".

(** Run an operation of the mock: raise when [faults] says so, otherwise
    return [value]; either way the attempt is journalled. *)
Definition attempt {A} (faults : Op → option string) (op : Op) (entry : string)
    (value : A) (w : World) : result string A * World :=
  match faults op with
  | Some e => (Raised e, w ++ [entry +:+ " !"])
  | None => (Returned value, w ++ [entry])
  end.

Definition sdk (faults : Op → option string) (resources : gset string)
  : SDK string string string string string string (list string)
        Handle nat string World :=
  {| DefaultAzureCredential := attempt faults OpCredential "credential" "credential";
     credential_aenter m := attempt faults OpCredentialEnter "enter credential" m;
     credential_aexit m _ := attempt faults OpCredentialExit "close credential" false;
     AIProjectClient _ endpoint :=
       attempt faults OpClient "client" ("client@" +:+ endpoint);
     client_aenter m := attempt faults OpClientEnter "enter client" m;
     client_aexit m _ := attempt faults OpClientExit "close client" false;
     connections_get _ conn_name w :=
       if decide (conn_name ∈ resources)
       then (Returned conn_name, w ++ ["get " +:+ conn_name])
       else (Raised "ResourceNotFoundError", w ++ ["get " +:+ conn_name +:+ " !"]);
     connection_id conn :=
       attempt faults OpConnectionId "id" ("/connections/" +:+ conn);
     BingGroundingTool conn_id := attempt faults OpBingGroundingTool "tool" conn_id;
     definitions tool :=
       attempt faults OpDefinitions "definitions" ["bing_grounding " +:+ tool];
     AzureAIAgent config := attempt faults OpAzureAIAgent "agent" config;
     CancellationToken w := attempt faults OpCancellationToken "token" (length w) w;
     on_messages _ messages _ _ w :=
       if decide (messages = [question])
       then attempt faults OpOnMessages "on_messages" canned_response w
       else (Raised "unexpected messages", w ++ ["on_messages !"]);
     print value := attempt faults OpPrint ("print " +:+ value) tt |}.

Definition no_fault : Op → option string := λ _, None.

Definition fault_at (op : Op) (e : string) : Op → option string :=
  λ op', if decide (op' = op) then Some e else None.

(** The faults of [f], and those of [g] where [f] has none. *)
Definition or_else (f g : Op → option string) : Op → option string :=
  λ op, match f op with Some e => Some e | None => g op end.

(** An environment with both variables set. *)
Definition environ : gmap string string :=
  {[ "AZURE_PROJECT_ENDPOINT" := "https://project.example.invalid";
     "BING_CONNECTION_NAME" := "bing" ]}.

Definition resources : gset string := {[ "bing" ]}.

(** The objects of the mock on an execution from [environ]. *)
Definition client : string := "client@https://project.example.invalid".
Definition handle : Handle := agent_config client ["bing_grounding /connections/bing"].

(** Everything works. *)
Definition run_ok := observe (sdk no_fault resources) environ [].

(** The search-grounding resource named by the environment does not
    exist. *)
Definition run_missing := observe (sdk no_fault ∅) environ [].

(** The message-handling call fails. *)
Definition run_call_fails :=
  observe (sdk (fault_at OpOnMessages "HttpResponseError") resources) environ [].

(** The message-handling call fails, and then the closing of the client
    fails too. *)
Definition run_close_fails :=
  observe
    (sdk (or_else (fault_at OpOnMessages "HttpResponseError")
                  (fault_at OpClientExit "ServiceRequestError"))
         resources)
    environ [].

(** Neither environment variable is set, and there is a connection named
    by the empty string. *)
Definition run_unset := observe (sdk no_fault {[ "" ]}) ∅ [].

(** The mock with a client whose [__aexit__] answers true. *)
Definition sdk_swallowing (faults : Op → option string) (resources : gset string)
  : SDK string string string string string string (list string)
        Handle nat string World :=
  let base := sdk faults resources in
  {| DefaultAzureCredential := DefaultAzureCredential base;
     credential_aenter := credential_aenter base;
     credential_aexit := credential_aexit base;
     AIProjectClient := AIProjectClient base;
     client_aenter := client_aenter base;
     client_aexit m _ := attempt faults OpClientExit "close client" true;
     connections_get := connections_get base;
     connection_id := connection_id base;
     BingGroundingTool := BingGroundingTool base;
     definitions := definitions base;
     AzureAIAgent := AzureAIAgent base;
     CancellationToken := CancellationToken base;
     on_messages := on_messages base;
     print := print base |}.

(** The message-handling call fails and the client's exit swallows the
    failure. *)
Definition run_swallowed :=
  observe
    (sdk_swallowing (fault_at OpOnMessages "HttpResponseError") resources) environ [].

(** The credential cannot be entered. *)
Definition run_no_credential :=
  observe
    (sdk (fault_at OpCredentialEnter "ClientAuthenticationError") resources) environ [].

(** The project client cannot be entered. *)
Definition run_no_client :=
  observe
    (sdk (fault_at OpClientEnter "ServiceRequestError") resources) environ [].

(** The definitions of the tool cannot be read. *)
Definition run_no_definitions :=
  observe (sdk (fault_at OpDefinitions "AttributeError") resources) environ [].

(** An environment where the connection name is set, to the empty
    string. *)
Definition environ_empty_name : gmap string string :=
  {[ "AZURE_PROJECT_ENDPOINT" := "https://project.example.invalid";
     "BING_CONNECTION_NAME" := "" ]}.

Definition run_empty_name := observe (sdk no_fault {[ "" ]}) environ_empty_name [].

End Mock.

(** ** Tactics for explicit lists of calls *)

(** Use [H : ev ∈ t] for an explicit [t]: the event is one of the listed
    ones; the cases of another kind or outcome go away. *)
Ltac which_event H :=
  repeat (apply elem_of_cons in H as [H|H];
          [ try discriminate H; try (injection H as H; subst) | ]);
  try (apply elem_of_nil in H; destruct H).

(** The event of the goal [ev ∈ t], [t] explicit, is one of the listed. *)
Ltac is_listed :=
  repeat first [ apply list_elem_of_here | apply list_elem_of_further ].

(** Split the explicit list of calls of the goal around one of them. *)
Ltac around_event :=
  first
    [ eexists [], _; split; [reflexivity|]
    | eexists [_], _; split; [reflexivity|]
    | eexists [_; _], _; split; [reflexivity|]
    | eexists [_; _; _], _; split; [reflexivity|]
    | eexists [_; _; _; _], _; split; [reflexivity|]
    | eexists [_; _; _; _; _], _; split; [reflexivity|]
    | eexists [_; _; _; _; _; _], _; split; [reflexivity|]
    | eexists [_; _; _; _; _; _; _], _; split; [reflexivity|]
    | eexists [_; _; _; _; _; _; _; _], _; split; [reflexivity|]
    | eexists [_; _; _; _; _; _; _; _; _], _; split; [reflexivity|]
    | eexists [_; _; _; _; _; _; _; _; _; _], _; split; [reflexivity|]
    | eexists [_; _; _; _; _; _; _; _; _; _; _], _; split; [reflexivity|]
    | eexists [_; _; _; _; _; _; _; _; _; _; _; _], _; split; [reflexivity|]
    | eexists [_; _; _; _; _; _; _; _; _; _; _; _; _], _; split; [reflexivity|] ].

(** ** Properties of [bing_example] *)

Section Properties.
Context {Exn Credential ProjectClient Connection ConnId BingTool ToolDefs
         Agent Token Response W : Type}.
Variable sdk : SDK Exn Credential ProjectClient Connection ConnId BingTool
                   ToolDefs Agent Token Response W.
Variable environ : gmap string string.

Local Abbreviation Ev :=
  (@Event Exn Credential ProjectClient Connection ConnId BingTool ToolDefs
          Agent Token Response).

(** *** The scope statement *)

(** An [async with], step by step: it ends without an exit when the
    manager cannot be built or entered; otherwise the body runs, the exit
    is awaited once with the body's exception, and its answer decides what
    remains in flight. *)
Lemma async_with_run {S Mgr V} (manager_expr : @Glue Exn S Mgr)
    (aenter : Mgr → @Glue Exn S V) (aexit : Mgr → option Exn → @Glue Exn S bool)
    (body : V → @Glue Exn S unit) (s : S) :
  async_with manager_expr aenter aexit body s
  = match manager_expr s with
    | (Raised e, s1) => (Raised e, s1)
    | (Returned manager, s1) =>
        match aenter manager s1 with
        | (Raised e, s2) => (Raised e, s2)
        | (Returned value, s2) =>
            let '(r, s3) := body value s2 in
            let '(answer, s4) := aexit manager (exception_of r) s3 in
            (completion (in_flight (exception_of r) answer), s4)
        end
    end.
Proof.
  unfold async_with, bind, try_except_else.
  destruct (manager_expr s) as [[e|m] s1]; [done|].
  destruct (aenter m s1) as [[e|v] s2]; [done|].
  destruct (body v s2) as [[e|[]] s3]; cbn.
  - by destruct (aexit m (Some e) s3) as [[e'|[]] s4].
  - by destruct (aexit m None s3) as [[e'|swallow] s4].
Qed.

Lemma exception_of_completion (exc : option Exn) :
  exception_of (completion exc) = exc.
Proof. by destruct exc. Qed.

(** The block makes no exit call, and what it raises is what its last
    call raised. *)
Lemma body_run_last client r (t : list Ev) :
  BodyRun environ client r t →
  Forall (λ ev, is_exit ev = false) t ∧ last t ≫= raised_by = exception_of r.
Proof. destruct 1; split; by repeat constructor. Qed.

(** *** Every execution is a [Run] *)

(** The execution of the goal ends here: name its result, world and
    calls. *)
Ltac ends_here :=
  rewrite <- ?app_assoc; cbn [app];
  eexists _, _, _; split; [reflexivity|]; split; [reflexivity|].

(** The block against the recording layer started with any journal: the
    calls it adds to the journal make a [BodyRun], and its result and world
    are those of the block against the layer itself. *)
Lemma recorded_body_run client w (journal : list Ev) :
  ∃ r w1 t,
    bing_example_body (recording sdk) environ client (w, journal)
    = (r, (w1, journal ++ t))
    ∧ bing_example_body sdk environ client w = (r, w1)
    ∧ BodyRun environ client r t.
Proof.
  unfold bing_example_body, bind. cbn -[getenv agent_config question].
  destruct (connections_get sdk client _ w) as [[e|conn] w1];
    cbn -[getenv agent_config question]; [ends_here; constructor|].
  destruct (connection_id sdk conn w1) as [[e|conn_id] w2];
    cbn -[getenv agent_config question]; [ends_here; constructor|].
  destruct (BingGroundingTool sdk conn_id w2) as [[e|tool] w3];
    cbn -[getenv agent_config question]; [ends_here; constructor|].
  destruct (definitions sdk tool w3) as [[e|defs] w4];
    cbn -[getenv agent_config question]; [ends_here; constructor|].
  destruct (AzureAIAgent sdk (agent_config client defs) w4) as [[e|agent] w5];
    cbn -[getenv agent_config question]; [ends_here; constructor|].
  destruct (CancellationToken sdk w5) as [[e|token] w6];
    cbn -[getenv agent_config question]; [ends_here; constructor|].
  destruct (on_messages sdk agent [question] token 5 w6) as [[e|response] w7];
    cbn -[getenv agent_config question]; [ends_here; constructor|].
  destruct (print sdk response w7) as [[e|[]] w8];
    cbn -[getenv agent_config question]; ends_here; constructor.
Qed.

(** The function against the recording layer: the calls it adds to the
    journal make a [Run], and its result and world are those of the
    function against the layer itself. *)
Lemma recorded_run w (journal : list Ev) :
  ∃ r w1 t,
    bing_example (recording sdk) environ (w, journal) = (r, (w1, journal ++ t))
    ∧ bing_example sdk environ w = (r, w1)
    ∧ Run environ r t.
Proof.
  unfold bing_example. rewrite !async_with_run.
  cbn -[getenv async_with bing_example_body].
  destruct (DefaultAzureCredential sdk w) as [[e|manager] w1];
    cbn -[getenv async_with bing_example_body]; [ends_here; constructor|].
  destruct (credential_aenter sdk manager w1) as [[e|credential] w2];
    cbn -[getenv async_with bing_example_body]; [ends_here; constructor|].
  rewrite !async_with_run. cbn -[getenv async_with bing_example_body].
  destruct (AIProjectClient sdk credential _ w2) as [[e|client_manager] w3];
    cbn -[getenv async_with bing_example_body].
  { destruct (credential_aexit sdk manager (Some e) w3) as [answer w4].
    cbn. ends_here. constructor. }
  destruct (client_aenter sdk client_manager w3) as [[e|client] w4];
    cbn -[getenv async_with bing_example_body].
  { destruct (credential_aexit sdk manager (Some e) w4) as [answer w5].
    cbn. ends_here. constructor. }
  match goal with
  | |- context [bing_example_body (recording sdk) environ client (w4, ?j)] =>
      destruct (recorded_body_run client w4 j) as (r & w5 & t & -> & -> & HB)
  end.
  cbn -[getenv].
  destruct (client_aexit sdk client_manager (exception_of r) w5)
    as [client_answer w6]; cbn -[getenv].
  rewrite !exception_of_completion.
  destruct (credential_aexit sdk manager
              (in_flight (exception_of r) client_answer) w6)
    as [credential_answer w7]; cbn -[getenv].
  rewrite <- !app_assoc. cbn [app].
  eexists _, _, (_ :: _ :: _ :: _ :: t ++ [_; _]).
  split; [reflexivity|]. split; [reflexivity|].
  exact (body_ran environ manager credential client_manager client _ _
           client_answer credential_answer HB).
Qed.

(** The calls the external layer wrote down during an execution, with the
    outcome of that execution, make a [Run]. *)
Lemma observe_run w :
  Run environ (outcome (observe sdk environ w)) (trace (observe sdk environ w)).
Proof.
  unfold observe.
  by destruct (recorded_run w []) as (r & w1 & t & -> & _ & HR).
Qed.

(** The journal changes nothing: the outcome and the world of the observed
    execution are those of the function against the external layer as it
    is. *)
Lemma recording_is_transparent w :
  bing_example sdk environ w
  = (outcome (observe sdk environ w), final_world (observe sdk environ w)).
Proof.
  unfold observe.
  by destruct (recorded_run w []) as (r & w1 & t & -> & -> & _).
Qed.

(** Case analysis on how the execution from world [w] went: which call
    raised, if any.  The calls made become an explicit list. *)
Ltac scope_cases w HB :=
  let HR := fresh "HR" in
  let t := fresh "t" in
  let r := fresh "r" in
  pose proof (observe_run w) as HR;
  set (t := trace (observe sdk environ w)) in *;
  set (r := outcome (observe sdk environ w)) in *;
  clearbody t r;
  destruct HR as [ ? | ? ? | ? ? ? ? | ? ? ? ? ? | ? ? ? ? ? ? ? ? HB ];
  cbn [app] in *.

Ltac run_cases w :=
  let HB := fresh "HB" in
  scope_cases w HB; [ .. | destruct HB ]; cbn [app] in *.

(** *** Fail-fast lookup *)

(** C3. When the lookup of the named search-grounding resource raises, it
    does so before any agent handle is constructed and before any
    [on_messages] call: none of the calls made before it is the agent
    constructor or [on_messages], and the only calls made after it are the
    exits of the two scopes. *)
Theorem lookup_failure_precedes_agent w client conn_name e :
  EConnectionsGet client conn_name (Raised e) ∈ trace (observe sdk environ w) →
  ∃ before after,
    trace (observe sdk environ w)
    = before ++ [EConnectionsGet client conn_name (Raised e)] ++ after
    ∧ Forall (λ ev, is_agent_construction ev = false ∧ is_on_messages ev = false) before
    ∧ Forall (λ ev, is_exit ev = true) after.
Proof.
  intros Hin. run_cases w; which_event Hin.
  eexists [_; _; _; _], [_; _].
  split; [reflexivity|]. split; repeat constructor.
Qed.

(** *** Order of the calls *)

(** The calls of an execution follow the text of the function: their step
    numbers increase strictly, so no call is made twice. *)
Lemma calls_in_textual_order w :
  StronglySorted lt (step_number <$> trace (observe sdk environ w)).
Proof. run_cases w; cbn; repeat constructor. Qed.

(** Nothing is raised by the function itself: an exception that reaches
    the caller was raised by one of the external calls. *)
Lemma exception_comes_from_a_call w e :
  outcome (observe sdk environ w) = Raised e →
  ∃ ev, ev ∈ trace (observe sdk environ w) ∧ raised_by ev = Some e.
Proof.
  intros Hout. apply Exists_exists.
  run_cases w; try subst after_client;
    repeat match goal with
           | a : result Exn bool |- _ => destruct a as [?|[]]
           end;
    cbn in Hout; try discriminate Hout; injection Hout as <-;
    repeat first [ by apply Exists_cons_hd | apply Exists_cons_tl ].
Qed.

(** *** Construction of the agent *)

(** C1. Whenever the function constructs the agent, for every environment
    (so for every non-empty endpoint and resource name) and every behaviour
    of the external layer, the constructor receives exactly the fields the
    function supplies: the five literals of the source, the project client
    its scope bound, and the definitions of the tool built from the id of
    the connection looked up.  The handle [on_messages] is later called
    on is the one this construction returned. *)
Theorem agent_constructed_with_supplied_fields w config r :
  EAzureAIAgent config r ∈ trace (observe sdk environ w) →
  ∃ manager credential client_manager client conn conn_id tool tool_definitions rest,
    trace (observe sdk environ w)
    = [EDefaultAzureCredential (Returned manager);
       ECredentialEnter manager (Returned credential);
       EAIProjectClient credential (getenv environ "AZURE_PROJECT_ENDPOINT" "")
         (Returned client_manager);
       EClientEnter client_manager (Returned client);
       EConnectionsGet client (getenv environ "BING_CONNECTION_NAME" "")
         (Returned conn);
       EConnectionId conn (Returned conn_id);
       EBingGroundingTool conn_id (Returned tool);
       EDefinitions tool (Returned tool_definitions);
       EAzureAIAgent config r] ++ rest
    ∧ name config = "bing_agent"
    ∧ description config = "An AI assistant with Bing grounding"
    ∧ project_client config = client
    ∧ deployment_name config = "gpt-4o"
    ∧ instructions config = "You are a helpful assistant."
    ∧ tools config = tool_definitions
    ∧ metadata config = {[ "source" := "AzureAIAgent" ]}
    ∧ (∀ agent messages token limit r',
         EOnMessages agent messages token limit r' ∈ rest → r = Returned agent).
Proof.
  intros Hin. run_cases w; which_event Hin;
    do 9 eexists; (split; [reflexivity|]);
    repeat (split; [reflexivity|]);
    intros ????? Hcall; by which_event Hcall.
Qed.

(** C9. The agent configuration is built once per execution, from the
    project client opened on the endpoint of the environment and the
    definitions of the tool of the connection named by the environment,
    and the function does nothing to it afterwards: no call before the
    construction and no call after it is a construction, and the calls
    that follow it are only the token creation, the exchange, the print
    and the exits of the scopes (steps 10 to 14), none of which is given
    the configuration or one of its fields. *)
Theorem agent_config_built_once w config r :
  EAzureAIAgent config r ∈ trace (observe sdk environ w) →
  ∃ before after credential client_manager client conn conn_id tool tool_definitions,
    trace (observe sdk environ w) = before ++ [EAzureAIAgent config r] ++ after
    ∧ config = agent_config client tool_definitions
    ∧ EAIProjectClient credential (getenv environ "AZURE_PROJECT_ENDPOINT" "")
        (Returned client_manager) ∈ before
    ∧ EClientEnter client_manager (Returned client) ∈ before
    ∧ EConnectionsGet client (getenv environ "BING_CONNECTION_NAME" "")
        (Returned conn) ∈ before
    ∧ EConnectionId conn (Returned conn_id) ∈ before
    ∧ EBingGroundingTool conn_id (Returned tool) ∈ before
    ∧ EDefinitions tool (Returned tool_definitions) ∈ before
    ∧ Forall (λ ev, step_number ev < 9)%nat before
    ∧ Forall (λ ev, 9 < step_number ev)%nat after
    ∧ calls_of is_agent_construction (trace (observe sdk environ w)) = 1%nat.
Proof.
  intros Hin. run_cases w; which_event Hin;
    eexists [_; _; _; _; _; _; _; _], _; do 7 eexists;
    (split; [reflexivity|]); (split; [reflexivity|]);
    repeat (split; [by is_listed|]);
    (split; [|split]); cbn; by repeat constructor.
Qed.

(** *** The exchange *)

(** C2. Every [on_messages] call receives as cancellation token the very
    object [CancellationToken()] returned at the call site, created just
    before the call and nowhere else, and as message limit the 5 of the
    call site. *)
Theorem token_and_limit_forwarded w agent messages token limit r :
  EOnMessages agent messages token limit r ∈ trace (observe sdk environ w) →
  limit = 5
  ∧ ∃ before after,
      trace (observe sdk environ w)
      = before ++ [ECancellationToken (Returned token);
                   EOnMessages agent messages token limit r] ++ after
      ∧ Forall (λ ev, step_number ev < 10)%nat before
      ∧ Forall (λ ev, 11 < step_number ev)%nat after.
Proof.
  intros Hin. run_cases w; which_event Hin;
    (split; [reflexivity|]);
    eexists [_; _; _; _; _; _; _; _; _], _;
    (split; [reflexivity|]); split; cbn; by repeat constructor.
Qed.

(** C8. Every response [on_messages] returns is passed as it is to
    [print], the next call, and to nothing else: the calls after the print
    are the exits of the scopes.  The function itself returns [None] when
    the print returns and the exits only release. *)
Theorem response_printed_unmodified w agent messages token limit response :
  EOnMessages agent messages token limit (Returned response)
    ∈ trace (observe sdk environ w) →
  messages = [question]
  ∧ ∃ before printed after,
      trace (observe sdk environ w)
      = before ++ [EOnMessages agent messages token limit (Returned response);
                   EPrint response printed] ++ after
      ∧ Forall (λ ev, step_number ev < 11)%nat before
      ∧ Forall (λ ev, is_exit ev = true) after
      ∧ (printed = Returned tt → Forall plain_release after →
         outcome (observe sdk environ w) = Returned tt).
Proof.
  intros Hin. run_cases w; which_event Hin;
    (split; [reflexivity|]);
    eexists [_; _; _; _; _; _; _; _; _; _], _, [_; _];
    (split; [reflexivity|]);
    (split; [cbn; by repeat constructor|]);
    (split; [by repeat constructor|]).
  - intros [=].
  - intros _ Hrel. subst after_client.
    apply Forall_cons in Hrel as [-> Hrel].
    by apply Forall_cons in Hrel as [-> _].
Qed.

(** C7. [on_messages] is called at most once in an execution:
    exactly once when every earlier step returned, that is when the
    cancellation token was created, and not at all otherwise.  The message
    sequence of the call is the single message of the source. *)
Theorem at_most_one_exchange w :
  (calls_of is_on_messages (trace (observe sdk environ w)) ≤ 1)%nat
  ∧ (calls_of is_on_messages (trace (observe sdk environ w)) = 1%nat
     ↔ ∃ token, ECancellationToken (Returned token) ∈ trace (observe sdk environ w))
  ∧ (∀ agent messages token limit r,
       EOnMessages agent messages token limit r ∈ trace (observe sdk environ w) →
       messages = [question] ∧ length messages = 1%nat).
Proof.
  split; [|split].
  - run_cases w; cbn; lia.
  - split.
    + intros Hone. run_cases w; cbn in Hone; try discriminate Hone;
        eexists; by is_listed.
    + intros [token Hin]. run_cases w; by which_event Hin.
  - intros ????? Hin. run_cases w; by which_event Hin.
Qed.

(** *** Order of the steps *)

(** C4. In every execution the calls are made in the order of the text,
    none twice.  When no call raises, the execution is exactly: credential
    built and entered, project client built from that credential and
    entered, connection looked up on that client, tool built from the id of
    that connection, agent built from the definitions of that tool, token
    created, [on_messages] called on that agent, response printed, client
    scope exited, credential scope exited; and the function returns. *)
Theorem steps_in_sequence w :
  StronglySorted lt (step_number <$> trace (observe sdk environ w))
  ∧ (Forall (λ ev, raised_by ev = None) (trace (observe sdk environ w)) →
     ∃ manager credential client_manager client conn conn_id tool tool_definitions
       agent token response client_answer credential_answer,
       trace (observe sdk environ w)
       = [EDefaultAzureCredential (Returned manager);
          ECredentialEnter manager (Returned credential);
          EAIProjectClient credential (getenv environ "AZURE_PROJECT_ENDPOINT" "")
            (Returned client_manager);
          EClientEnter client_manager (Returned client);
          EConnectionsGet client (getenv environ "BING_CONNECTION_NAME" "")
            (Returned conn);
          EConnectionId conn (Returned conn_id);
          EBingGroundingTool conn_id (Returned tool);
          EDefinitions tool (Returned tool_definitions);
          EAzureAIAgent (agent_config client tool_definitions) (Returned agent);
          ECancellationToken (Returned token);
          EOnMessages agent [question] token 5 (Returned response);
          EPrint response (Returned tt);
          EClientExit client_manager None (Returned client_answer);
          ECredentialExit manager None (Returned credential_answer)]
       ∧ outcome (observe sdk environ w) = Returned tt).
Proof.
  split; [apply calls_in_textual_order|].
  intros Hok.
  run_cases w; try subst after_client;
    repeat match goal with
           | a : result Exn bool |- _ => destruct a as [?|?]
           end;
    repeat (let Hhd := fresh "Hhd" in
            apply Forall_cons in Hok as [Hhd Hok];
            cbn in Hhd; try discriminate Hhd).
  do 13 eexists. split; reflexivity.
Qed.

(** *** Release of the scopes *)

(** C5. Once the project client's scope is entered, whatever happens in
    the block (the lookup, a constructor, [on_messages] or [print] raising,
    or the block running to its end), the last two calls of the execution
    are the exit of the client's scope and then the exit of the
    credential's scope, each on the manager that was entered and awaited
    with what is in flight; the caller gets the outcome only after them,
    and it is what the exits leave in flight. *)
Theorem scopes_released_on_every_exit_path w client_manager client :
  EClientEnter client_manager (Returned client) ∈ trace (observe sdk environ w) →
  ∃ manager credential block client_answer credential_answer,
    let exc := last block ≫= raised_by in
    trace (observe sdk environ w)
    = [EDefaultAzureCredential (Returned manager);
       ECredentialEnter manager (Returned credential);
       EAIProjectClient credential (getenv environ "AZURE_PROJECT_ENDPOINT" "")
         (Returned client_manager);
       EClientEnter client_manager (Returned client)]
      ++ block
      ++ [EClientExit client_manager exc client_answer;
          ECredentialExit manager (in_flight exc client_answer) credential_answer]
    ∧ Forall (λ ev, is_exit ev = false) block
    ∧ outcome (observe sdk environ w)
      = completion (in_flight (in_flight exc client_answer) credential_answer).
Proof.
  intros Hin. scope_cases w HB; which_event Hin.
  - destruct (body_run_last _ _ _ HB) as [Hblock Hlast].
    subst after_client. rewrite <- Hlast.
    by exists manager, credential, body_events, client_answer, credential_answer.
  - exfalso. apply elem_of_app in Hin as [Hin|Hin]; [|by which_event Hin].
    by destruct HB; which_event Hin.
Qed.

(** *** Failures *)

(** C6. The function neither recovers from, retries nor translates a
    failure of the external layer.  When a call raises [e]: the only calls
    made after it are exits of the scopes that are open (no call is made
    again, no other call is attempted), the first of them is awaited with
    [e] itself, and when the exits only release, each is awaited with [e]
    and [e] is what the caller gets.  When the failing call is not itself
    an exit, it is the first call to fail.  No call is ever made twice, and
    whatever exception reaches the caller was raised by an external
    call. *)
Theorem failures_propagate_unmodified w ev e :
  ev ∈ trace (observe sdk environ w) →
  raised_by ev = Some e →
  (∃ before after,
     trace (observe sdk environ w) = before ++ [ev] ++ after
     ∧ Forall (λ ev', is_exit ev' = true) after
     ∧ (is_exit ev = false →
        Forall (λ ev', raised_by ev' = None ∧ is_exit ev' = false) before)
     ∧ (∀ ev', head after = Some ev' → handed_to_exit ev' = Some e)
     ∧ (Forall plain_release after →
        Forall (λ ev', handed_to_exit ev' = Some e) after
        ∧ outcome (observe sdk environ w) = Raised e))
  ∧ StronglySorted lt (step_number <$> trace (observe sdk environ w))
  ∧ (∀ e', outcome (observe sdk environ w) = Raised e' →
       ∃ ev', ev' ∈ trace (observe sdk environ w) ∧ raised_by ev' = Some e').
Proof.
  intros Hin Hraised.
  split; [|split; [apply calls_in_textual_order|apply exception_comes_from_a_call]].
  run_cases w; try subst after_client;
    repeat match goal with
           | a : result Exn bool |- _ => destruct a as [?|[]]
           end;
    which_event Hin; subst ev; cbn in Hraised;
    try discriminate Hraised; injection Hraised as ->;
    around_event;
    (split; [by repeat constructor|]);
    (split; [by intros; repeat constructor|]);
    (split; [by intros ? [= <-]|]);
    intros Hrel;
    repeat (let Hhd := fresh "Hhd" in
            apply Forall_cons in Hrel as [Hhd Hrel];
            cbn in Hhd; try discriminate Hhd);
    by repeat constructor.
Qed.

(** *** Unset environment variables *)

(** C10. With [AZURE_PROJECT_ENDPOINT] unset, the endpoint given to
    [AIProjectClient] is the empty string, and the constructor is called
    with it as soon as the credential is acquired; with
    [BING_CONNECTION_NAME] unset, the name given to [connections.get] is
    the empty string, and the lookup is made with it as soon as the client
    is acquired.  The function checks neither value and raises nothing of
    its own: an exception that reaches the caller was raised by an
    external call. *)
Theorem unset_variables_default_to_empty w :
  (environ !! "AZURE_PROJECT_ENDPOINT" = None →
     (∀ credential endpoint r,
        EAIProjectClient credential endpoint r ∈ trace (observe sdk environ w) →
        endpoint = "")
     ∧ (∀ manager credential,
          ECredentialEnter manager (Returned credential)
            ∈ trace (observe sdk environ w) →
          ∃ r, EAIProjectClient credential "" r ∈ trace (observe sdk environ w)))
  ∧ (environ !! "BING_CONNECTION_NAME" = None →
       (∀ client conn_name r,
          EConnectionsGet client conn_name r ∈ trace (observe sdk environ w) →
          conn_name = "")
       ∧ (∀ client_manager client,
            EClientEnter client_manager (Returned client)
              ∈ trace (observe sdk environ w) →
            ∃ r, EConnectionsGet client "" r ∈ trace (observe sdk environ w)))
  ∧ (∀ e, outcome (observe sdk environ w) = Raised e →
       ∃ ev, ev ∈ trace (observe sdk environ w) ∧ raised_by ev = Some e).
Proof.
  split; [|split; [|apply exception_comes_from_a_call]].
  - intros Hunset. split.
    + intros ??? Hin.
      run_cases w; which_event Hin; unfold getenv; by rewrite Hunset.
    + intros ?? Hin.
      run_cases w; which_event Hin; unfold getenv; rewrite Hunset;
        eexists; by is_listed.
  - intros Hunset. split.
    + intros ??? Hin.
      run_cases w; which_event Hin; unfold getenv; by rewrite Hunset.
    + intros ?? Hin.
      run_cases w; which_event Hin; unfold getenv; rewrite !Hunset;
        eexists; by is_listed.
Qed.

(** *** What is in flight, call by call *)

(** X1. The outcome of the function is decided by its last call alone:
    the caller gets the exception that call leaves in flight, and [None]
    when it leaves none. *)
Theorem outcome_is_left_by_last_call w :
  outcome (observe sdk environ w)
  = completion (last (trace (observe sdk environ w)) ≫= left_in_flight).
Proof. by run_cases w. Qed.

(** X2. Between two consecutive calls: an exit is awaited with exactly
    what the call before it left in flight, and any other call is made
    only when the call before it left nothing in flight. *)
Theorem in_flight_chain w (i : nat) (a b : Ev) :
  trace (observe sdk environ w) !! i = Some a →
  trace (observe sdk environ w) !! S i = Some b →
  if is_exit b then handed_to_exit b = left_in_flight a
  else left_in_flight a = None.
Proof.
  intros Ha Hb.
  run_cases w; try subst after_client;
    repeat (destruct i as [|i]; cbn in Ha, Hb;
            [ try discriminate Hb; injection Ha as <-; injection Hb as <-;
              reflexivity
            | try discriminate Ha ]).
Qed.

(** *** The scopes *)

(** X3. Once the credential's scope is entered, the execution ends with
    the exit of that scope, on the manager that was entered and awaited
    with what the call before it left in flight, also when the project
    client cannot be built or entered; the credential is exited nowhere
    else. *)
Theorem credential_released_last w manager credential :
  ECredentialEnter manager (Returned credential) ∈ trace (observe sdk environ w) →
  ∃ calls answer,
    trace (observe sdk environ w)
    = calls ++ [ECredentialExit manager (last calls ≫= left_in_flight) answer]
    ∧ Forall (λ ev, is_credential_exit ev = false) calls
    ∧ outcome (observe sdk environ w)
      = completion (in_flight (last calls ≫= left_in_flight) answer).
Proof.
  intros Hin.
  run_cases w; which_event Hin; try subst after_client;
    match goal with
    | |- ∃ calls _, ?t = _ ∧ _ => exists (removelast t)
    end;
    cbn [removelast]; eexists;
    (split; [reflexivity|]); (split; [repeat constructor|reflexivity]).
Qed.

(** X4. A scope is exited exactly when it was entered: the exit of the
    client (of the credential) is awaited on a manager if and only if the
    entering of that manager returned, and at most once. *)
Theorem exits_match_entries w :
  (∀ m, (∃ exc r, EClientExit m exc r ∈ trace (observe sdk environ w))
        ↔ (∃ v, EClientEnter m (Returned v) ∈ trace (observe sdk environ w)))
  ∧ (∀ m, (∃ exc r, ECredentialExit m exc r ∈ trace (observe sdk environ w))
          ↔ (∃ v, ECredentialEnter m (Returned v) ∈ trace (observe sdk environ w)))
  ∧ (calls_of is_client_exit (trace (observe sdk environ w)) ≤ 1)%nat
  ∧ (calls_of is_credential_exit (trace (observe sdk environ w)) ≤ 1)%nat.
Proof.
  split; [|split; [|split]].
  - intros m; split.
    + intros (exc & r & Hin). run_cases w; which_event Hin; eexists; by is_listed.
    + intros (v & Hin). run_cases w; which_event Hin; do 2 eexists; by is_listed.
  - intros m; split.
    + intros (exc & r & Hin). run_cases w; which_event Hin; eexists; by is_listed.
    + intros (v & Hin). run_cases w; which_event Hin; do 2 eexists; by is_listed.
  - run_cases w; cbn; lia.
  - run_cases w; cbn; lia.
Qed.

(** X5. When the credential cannot be built or entered, nothing else is
    called, no scope is exited, and the caller gets the exception as it
    was raised, whatever the rest of the external layer would do. *)
Theorem credential_failure_ends_execution w e :
  (EDefaultAzureCredential (Raised e) ∈ trace (observe sdk environ w)
   ∨ ∃ manager, ECredentialEnter manager (Raised e) ∈ trace (observe sdk environ w)) →
  (trace (observe sdk environ w) = [EDefaultAzureCredential (Raised e)]
   ∨ ∃ manager,
       trace (observe sdk environ w)
       = [EDefaultAzureCredential (Returned manager);
          ECredentialEnter manager (Raised e)])
  ∧ outcome (observe sdk environ w) = Raised e.
Proof.
  intros [Hin|[manager Hin]]; run_cases w; which_event Hin;
    (split; [|reflexivity]); [by left|right; by eexists].
Qed.

(** X10. When the exit of the client swallows an exception of the block,
    the failure ends there: the credential's scope is exited with nothing
    in flight, and the caller gets an exception only if that last exit
    raises one. *)
Theorem swallowed_failure_is_not_seen w client_manager e :
  EClientExit client_manager (Some e) (Returned true)
    ∈ trace (observe sdk environ w) →
  ∃ calls manager answer,
    trace (observe sdk environ w)
    = calls ++ [EClientExit client_manager (Some e) (Returned true);
                ECredentialExit manager None answer]
    ∧ raised_by <$> last calls = Some (Some e)
    ∧ outcome (observe sdk environ w) = completion (exception_of answer).
Proof.
  intros Hin.
  run_cases w; which_event Hin; try subst after_client;
    match goal with
    | |- ∃ calls _ _, ?t = _ ∧ _ => exists (removelast (removelast t))
    end;
    cbn [removelast]; do 2 eexists;
    (split; [reflexivity|]); (split; [reflexivity|]);
    by destruct credential_answer as [?|[]].
Qed.

(** X9. A normal return means that every call returned, unless an exit
    swallowed an exception: when no exit answers true to an exception and
    the function returns, no call of the execution raised. *)
Theorem normal_return_means_no_failure w :
  Forall (λ ev, swallows ev = false) (trace (observe sdk environ w)) →
  outcome (observe sdk environ w) = Returned tt →
  Forall (λ ev, raised_by ev = None) (trace (observe sdk environ w)).
Proof.
  intros Hns Hout.
  run_cases w; try subst after_client;
    repeat match goal with
           | a : result Exn bool |- _ => destruct a as [?|[]]
           end;
    cbn in Hout; try discriminate Hout;
    repeat (let Hhd := fresh "Hhd" in
            apply Forall_cons in Hns as [Hhd Hns];
            cbn in Hhd; try discriminate Hhd);
    by repeat constructor.
Qed.

(** *** The environment *)

(** X7. A variable that is set is passed on as it is, the empty string
    included: every [AIProjectClient] construction gets the value of
    [AZURE_PROJECT_ENDPOINT] and the credential its scope bound, and every
    lookup is made for the value of [BING_CONNECTION_NAME], on the client
    its scope bound. *)
Theorem set_variables_passed_as_they_are w endpoint conn_name :
  environ !! "AZURE_PROJECT_ENDPOINT" = Some endpoint →
  environ !! "BING_CONNECTION_NAME" = Some conn_name →
  (∀ credential endpoint' r,
     EAIProjectClient credential endpoint' r ∈ trace (observe sdk environ w) →
     endpoint' = endpoint
     ∧ ∃ manager,
         ECredentialEnter manager (Returned credential)
           ∈ trace (observe sdk environ w))
  ∧ (∀ client conn_name' r,
       EConnectionsGet client conn_name' r ∈ trace (observe sdk environ w) →
       conn_name' = conn_name
       ∧ ∃ client_manager,
           EClientEnter client_manager (Returned client)
             ∈ trace (observe sdk environ w)).
Proof.
  intros Hendpoint Hname. split.
  - intros ??? Hin.
    run_cases w; which_event Hin; unfold getenv; rewrite Hendpoint;
      (split; [reflexivity|]); eexists; by is_listed.
  - intros ??? Hin.
    run_cases w; which_event Hin; unfold getenv; rewrite Hname;
      (split; [reflexivity|]); eexists; by is_listed.
Qed.

(** *** What is built from what, and what is printed *)

(** X11. In every execution, those that fail later included, the Bing
    tool is built from the id of the connection the lookup returned, and
    the lookup was made on the client the scope bound, for the name the
    environment gives. *)
Theorem tool_built_from_looked_up_connection w conn_id r :
  EBingGroundingTool conn_id r ∈ trace (observe sdk environ w) →
  ∃ client_manager client conn,
    EClientEnter client_manager (Returned client) ∈ trace (observe sdk environ w)
    ∧ EConnectionsGet client (getenv environ "BING_CONNECTION_NAME" "") (Returned conn)
        ∈ trace (observe sdk environ w)
    ∧ EConnectionId conn (Returned conn_id) ∈ trace (observe sdk environ w).
Proof.
  intros Hin.
  run_cases w; which_event Hin; do 3 eexists; repeat split; by is_listed.
Qed.

(** X8. The function prints at most once, and only a response: whatever
    [print] is given was returned by the [on_messages] call of the same
    execution, made on the question of the source with limit 5. *)
Theorem only_the_response_is_printed w value r :
  EPrint value r ∈ trace (observe sdk environ w) →
  (∃ agent token,
     EOnMessages agent [question] token 5 (Returned value)
       ∈ trace (observe sdk environ w))
  ∧ calls_of is_print (trace (observe sdk environ w)) = 1%nat.
Proof.
  intros Hin.
  run_cases w; which_event Hin; (split; [|reflexivity]);
    do 2 eexists; by is_listed.
Qed.

End Properties.

(** ** The function on the mock *)

Example run_missing_calls :
  trace Mock.run_missing
  = [EDefaultAzureCredential (Returned "credential");
     ECredentialEnter "credential" (Returned "credential");
     EAIProjectClient "credential" "https://project.example.invalid"
       (Returned Mock.client);
     EClientEnter Mock.client (Returned Mock.client);
     EConnectionsGet Mock.client "bing" (Raised "ResourceNotFoundError");
     EClientExit Mock.client (Some "ResourceNotFoundError") (Returned false);
     ECredentialExit "credential" (Some "ResourceNotFoundError") (Returned false)]
  ∧ outcome Mock.run_missing = Raised "ResourceNotFoundError".
Proof. split; by vm_compute. Qed.

Example run_ok_journal :
  outcome Mock.run_ok = Returned tt
  ∧ final_world Mock.run_ok
    = ["credential"; "enter credential"; "client"; "enter client"; "get bing";
       "id"; "tool"; "definitions"; "agent"; "token"; "on_messages";
       "print " +:+ Mock.canned_response; "close client"; "close credential"].
Proof. split; by vm_compute. Qed.

(** An exit that raises is itself a failure of the external layer: its
    exception is what the outer exit is awaited with and what the caller
    gets, as [async with] has it. *)
Example run_close_fails_outcome :
  drop 10 (trace Mock.run_close_fails)
  = [EOnMessages Mock.handle [question] 9%nat 5 (Raised "HttpResponseError");
     EClientExit Mock.client (Some "HttpResponseError") (Raised "ServiceRequestError");
     ECredentialExit "credential" (Some "ServiceRequestError") (Returned false)]
  ∧ outcome Mock.run_close_fails = Raised "ServiceRequestError".
Proof. split; by vm_compute. Qed.

(** ** The theorems on the mock *)

(** The agent of the mock is built from the five literals, the client of
    the mock and the definitions of its Bing tool. *)
Lemma agent_constructed_with_supplied_fields_witness :
  EAzureAIAgent Mock.handle (Returned Mock.handle) ∈ trace Mock.run_ok
  ∧ name Mock.handle = "bing_agent"
  ∧ project_client Mock.handle = Mock.client
  ∧ deployment_name Mock.handle = "gpt-4o"
  ∧ metadata Mock.handle !! "source" = Some "AzureAIAgent".
Proof.
  assert (Hin : EAzureAIAgent Mock.handle (Returned Mock.handle) ∈ trace Mock.run_ok)
    by (vm_compute; is_listed).
  split; [exact Hin|].
  destruct (agent_constructed_with_supplied_fields _ _ _ _ _ Hin)
    as (? & ? & ? & ? & ? & ? & ? & ? & ? & _ & Hname & _ & _ & Hdep & _ & _ & Hmeta & _).
  rewrite Hname, Hdep, Hmeta. by vm_compute.
Defined.

(** [on_messages] of the mock receives the token the mock created (its
    ninth journal entry) and the limit 5. *)
Lemma token_and_limit_forwarded_witness :
  EOnMessages Mock.handle [question] 9%nat 5 (Returned Mock.canned_response)
    ∈ trace Mock.run_ok
  ∧ ECancellationToken (Returned 9%nat) ∈ trace Mock.run_ok.
Proof.
  assert (Hin : EOnMessages Mock.handle [question] 9%nat 5
                  (Returned Mock.canned_response) ∈ trace Mock.run_ok)
    by (vm_compute; is_listed).
  split; [exact Hin|].
  destruct (token_and_limit_forwarded _ _ _ _ _ _ _ _ Hin)
    as (_ & before & after & Heq & _).
  unfold Mock.run_ok. rewrite Heq.
  apply elem_of_app. right. apply list_elem_of_here.
Defined.

(** With the resource missing, the lookup of the mock raises, after calls
    that are neither the construction of the agent nor an exchange and
    before the two exits. *)
Lemma lookup_failure_precedes_agent_witness :
  ∃ before after,
    trace Mock.run_missing
    = before ++ [EConnectionsGet Mock.client "bing" (Raised "ResourceNotFoundError")]
             ++ after
    ∧ Forall (λ ev, is_agent_construction ev = false ∧ is_on_messages ev = false) before
    ∧ Forall (λ ev, is_exit ev = true) after.
Proof.
  apply (lookup_failure_precedes_agent (Mock.sdk Mock.no_fault ∅) Mock.environ []).
  vm_compute. is_listed.
Defined.

(** Nothing raises on the mock where everything works, and the function
    returns. *)
Lemma steps_in_sequence_witness :
  Forall (λ ev, raised_by ev = None) (trace Mock.run_ok)
  ∧ outcome Mock.run_ok = Returned tt.
Proof.
  assert (Hok : Forall (λ ev, raised_by ev = None) (trace Mock.run_ok))
    by (vm_compute; repeat constructor).
  split; [exact Hok|].
  destruct (steps_in_sequence (Mock.sdk Mock.no_fault Mock.resources) Mock.environ [])
    as [_ Hsuccess].
  destruct (Hsuccess Hok) as (? & ? & ? & ? & ? & ? & ? & ? & ? & ? & ? & ? & ? & _ & Hout).
  exact Hout.
Defined.

(** When the message-handling call of the mock fails, the execution ends
    with the exit of the client and then the exit of the credential, and
    the journal of the mock ends with the two closings. *)
Lemma scopes_released_on_every_exit_path_witness :
  EClientEnter Mock.client (Returned Mock.client) ∈ trace Mock.run_call_fails
  ∧ drop 11 (final_world Mock.run_call_fails) = ["close client"; "close credential"]
  ∧ ∃ calls manager exc exc' client_answer credential_answer,
      trace Mock.run_call_fails
      = calls ++ [EClientExit Mock.client exc client_answer;
                  ECredentialExit manager exc' credential_answer].
Proof.
  assert (Hin : EClientEnter Mock.client (Returned Mock.client)
                  ∈ trace Mock.run_call_fails)
    by (vm_compute; is_listed).
  split; [exact Hin|]. split; [by vm_compute|].
  destruct (scopes_released_on_every_exit_path _ _ _ _ _ Hin)
    as (manager & credential & block & client_answer & credential_answer & Heq & _).
  cbv zeta in Heq. unfold Mock.run_call_fails. rewrite Heq.
  eexists (_ ++ block), manager, _, _, client_answer, credential_answer.
  by rewrite <- app_assoc.
Defined.

(** The failure of the message-handling call of the mock reaches the
    caller as it was raised. *)
Lemma failures_propagate_unmodified_witness :
  EOnMessages Mock.handle [question] 9%nat 5 (Raised "HttpResponseError")
    ∈ trace Mock.run_call_fails
  ∧ outcome Mock.run_call_fails = Raised "HttpResponseError".
Proof.
  assert (Hin : EOnMessages Mock.handle [question] 9%nat 5 (Raised "HttpResponseError")
                  ∈ trace Mock.run_call_fails)
    by (vm_compute; is_listed).
  split; [exact Hin|].
  destruct (failures_propagate_unmodified _ _ _ _ "HttpResponseError" Hin eq_refl)
    as ((before & after & Heq & _ & _ & _ & Hplain) & _).
  apply Hplain.
  assert (Hall : Forall plain_release (trace Mock.run_call_fails))
    by (vm_compute; repeat constructor).
  unfold Mock.run_call_fails in Hall. rewrite Heq in Hall.
  apply Forall_app in Hall as [_ Hall].
  by apply Forall_app in Hall as [_ Hall].
Defined.

(** C6, with "every failure" taken as written, fails as soon as an exit
    of a scope does more than release.  When the closing of the client
    raises after the message-handling call has failed, the caller gets the
    exception of the closing, not that of the call; when the exit of the
    client answers true, the caller gets no exception at all. *)
Lemma failure_lost_when_exit_interferes :
  ¬ every_failure_reaches_caller Mock.run_close_fails
  ∧ ¬ every_failure_reaches_caller Mock.run_swallowed.
Proof.
  split; intros Hall.
  - assert (Hin : EOnMessages Mock.handle [question] 9%nat 5 (Raised "HttpResponseError")
                    ∈ trace Mock.run_close_fails)
      by (vm_compute; is_listed).
    specialize (Hall _ "HttpResponseError" Hin eq_refl).
    vm_compute in Hall. discriminate Hall.
  - assert (Hin : EOnMessages Mock.handle [question] 9%nat 5 (Raised "HttpResponseError")
                    ∈ trace Mock.run_swallowed)
      by (vm_compute; is_listed).
    specialize (Hall _ "HttpResponseError" Hin eq_refl).
    vm_compute in Hall. discriminate Hall.
Qed.

(** C7, with "every execution" taken as written, fails where the resource
    is missing: no exchange takes place in that execution. *)
Lemma no_exchange_when_resource_missing :
  ¬ exactly_one_exchange (trace Mock.run_missing).
Proof. intros [Hone _]. vm_compute in Hone. discriminate Hone. Qed.

(** On the mock where everything works the exchange takes place once. *)
Lemma at_most_one_exchange_witness :
  calls_of is_on_messages (trace Mock.run_ok) = 1%nat.
Proof.
  destruct (at_most_one_exchange (Mock.sdk Mock.no_fault Mock.resources) Mock.environ [])
    as (_ & Hone & _).
  apply Hone. exists 9%nat. vm_compute. is_listed.
Defined.

(** The mock answers the question of the notebook with its fixed
    response, and that response is what is printed. *)
Lemma response_printed_unmodified_witness :
  EOnMessages Mock.handle
    [{| content := "What is Microsoft's annual leave policy? Provide citations for your answers.";
        source := "user" |}]
    9%nat 5 (Returned Mock.canned_response) ∈ trace Mock.run_ok
  ∧ ∃ printed, EPrint Mock.canned_response printed ∈ trace Mock.run_ok.
Proof.
  assert (Hin : EOnMessages Mock.handle [question] 9%nat 5
                  (Returned Mock.canned_response) ∈ trace Mock.run_ok)
    by (vm_compute; is_listed).
  split; [exact Hin|].
  destruct (response_printed_unmodified _ _ _ _ _ _ _ _ Hin)
    as (_ & before & printed & after & Heq & _).
  exists printed. unfold Mock.run_ok. rewrite Heq.
  apply elem_of_app. right. apply list_elem_of_further, list_elem_of_here.
Defined.

(** The agent of the mock is configured once. *)
Lemma agent_config_built_once_witness :
  EAzureAIAgent Mock.handle (Returned Mock.handle) ∈ trace Mock.run_ok
  ∧ calls_of is_agent_construction (trace Mock.run_ok) = 1%nat.
Proof.
  assert (Hin : EAzureAIAgent Mock.handle (Returned Mock.handle) ∈ trace Mock.run_ok)
    by (vm_compute; is_listed).
  split; [exact Hin|].
  destruct (agent_config_built_once _ _ _ _ _ Hin)
    as (? & ? & ? & ? & ? & ? & ? & ? & ? & _ & _ & _ & _ & _ & _ & _ & _ & _ & _ & Hone).
  exact Hone.
Defined.

(** With an empty environment the client of the mock is opened on the
    empty endpoint and the connection named by the empty string is looked
    up. *)
Lemma unset_variables_default_to_empty_witness :
  (∅ : gmap string string) !! "AZURE_PROJECT_ENDPOINT" = None
  ∧ (∅ : gmap string string) !! "BING_CONNECTION_NAME" = None
  ∧ (∃ r, EAIProjectClient "credential" "" r ∈ trace Mock.run_unset)
  ∧ (∃ r, EConnectionsGet "client@" "" r ∈ trace Mock.run_unset).
Proof.
  destruct (unset_variables_default_to_empty (Mock.sdk Mock.no_fault {[ "" ]}) ∅ [])
    as (Hendpoint & Hname & _).
  split; [reflexivity|]. split; [reflexivity|]. split.
  - apply (proj2 (Hendpoint eq_refl) "credential" "credential").
    vm_compute. is_listed.
  - apply (proj2 (Hname eq_refl) "client@" "client@").
    vm_compute. is_listed.
Defined.

(** ** The further theorems on the mock *)

Example run_swallowed_outcome :
  outcome Mock.run_swallowed = Returned tt
  ∧ drop 10 (trace Mock.run_swallowed)
    = [EOnMessages Mock.handle [question] 9%nat 5 (Raised "HttpResponseError");
       EClientExit Mock.client (Some "HttpResponseError") (Returned true);
       ECredentialExit "credential" None (Returned false)].
Proof. split; by vm_compute. Qed.

Example run_no_client_calls :
  trace Mock.run_no_client
  = [EDefaultAzureCredential (Returned "credential");
     ECredentialEnter "credential" (Returned "credential");
     EAIProjectClient "credential" "https://project.example.invalid"
       (Returned Mock.client);
     EClientEnter Mock.client (Raised "ServiceRequestError");
     ECredentialExit "credential" (Some "ServiceRequestError") (Returned false)]
  ∧ outcome Mock.run_no_client = Raised "ServiceRequestError".
Proof. split; by vm_compute. Qed.

(** The exit of the client of the mock is awaited with the failure the
    message-handling call left in flight. *)
Lemma in_flight_chain_witness :
  let a := EOnMessages Mock.handle [question] 9%nat 5 (Raised "HttpResponseError") in
  let b := EClientExit Mock.client (Some "HttpResponseError") (Returned false) in
  trace Mock.run_call_fails !! 10%nat = Some a
  ∧ trace Mock.run_call_fails !! 11%nat = Some b
  ∧ handed_to_exit b = left_in_flight a.
Proof.
  intros a b.
  assert (Ha : trace Mock.run_call_fails !! 10%nat = Some a) by (by vm_compute).
  assert (Hb : trace Mock.run_call_fails !! 11%nat = Some b) by (by vm_compute).
  split; [exact Ha|]. split; [exact Hb|].
  exact (in_flight_chain _ _ _ 10%nat a b Ha Hb).
Defined.

(** When the client of the mock cannot be entered, the credential is
    still exited, last. *)
Lemma credential_released_last_witness :
  ∃ calls answer,
    trace Mock.run_no_client
    = calls ++ [ECredentialExit "credential" (last calls ≫= left_in_flight) answer]
    ∧ Forall (λ ev, is_credential_exit ev = false) calls
    ∧ outcome Mock.run_no_client
      = completion (in_flight (last calls ≫= left_in_flight) answer).
Proof.
  apply (credential_released_last
           (Mock.sdk (Mock.fault_at Mock.OpClientEnter "ServiceRequestError")
                     Mock.resources)
           Mock.environ [] "credential" "credential").
  vm_compute. is_listed.
Defined.

(** When the client of the mock cannot be entered, its exit is never
    awaited, and the exit of the credential is. *)
Lemma exits_match_entries_witness :
  (∀ exc r, EClientExit Mock.client exc r ∉ trace Mock.run_no_client)
  ∧ ∃ exc r, ECredentialExit "credential" exc r ∈ trace Mock.run_no_client.
Proof.
  destruct (exits_match_entries
              (Mock.sdk (Mock.fault_at Mock.OpClientEnter "ServiceRequestError")
                        Mock.resources)
              Mock.environ [])
    as (Hclient & Hcredential & _).
  split.
  - intros exc r Hin.
    destruct (proj1 (Hclient Mock.client) (ex_intro _ exc (ex_intro _ r Hin)))
      as [v Hentered].
    vm_compute in Hentered. by which_event Hentered.
  - apply Hcredential. exists "credential". vm_compute. is_listed.
Defined.

(** When the credential of the mock cannot be entered, the caller gets
    the authentication failure. *)
Lemma credential_failure_ends_execution_witness :
  outcome Mock.run_no_credential = Raised "ClientAuthenticationError".
Proof.
  apply (credential_failure_ends_execution
           (Mock.sdk (Mock.fault_at Mock.OpCredentialEnter "ClientAuthenticationError")
                     Mock.resources)
           Mock.environ []).
  right. exists "credential". vm_compute. is_listed.
Defined.

(** With the connection name set to the empty string, the client of the
    mock is built on the endpoint of the environment and the lookup is
    made for the empty string. *)
Lemma set_variables_passed_as_they_are_witness :
  (∀ credential endpoint r,
     EAIProjectClient credential endpoint r ∈ trace Mock.run_empty_name →
     endpoint = "https://project.example.invalid")
  ∧ (∀ client conn_name r,
       EConnectionsGet client conn_name r ∈ trace Mock.run_empty_name →
       conn_name = "")
  ∧ EConnectionsGet Mock.client "" (Returned "") ∈ trace Mock.run_empty_name.
Proof.
  destruct (set_variables_passed_as_they_are
              (Mock.sdk Mock.no_fault {[ "" ]}) Mock.environ_empty_name []
              "https://project.example.invalid" "")
    as [Hendpoint Hname]; [by vm_compute..|].
  split; [|split].
  - intros ??? Hin. by destruct (Hendpoint _ _ _ Hin).
  - intros ??? Hin. by destruct (Hname _ _ _ Hin).
  - vm_compute. is_listed.
Defined.

(** The mock prints once, the response of its [on_messages]. *)
Lemma only_the_response_is_printed_witness :
  (∃ agent token,
     EOnMessages agent [question] token 5 (Returned Mock.canned_response)
       ∈ trace Mock.run_ok)
  ∧ calls_of is_print (trace Mock.run_ok) = 1%nat.
Proof.
  apply (only_the_response_is_printed
           (Mock.sdk Mock.no_fault Mock.resources) Mock.environ []
           Mock.canned_response (Returned tt)).
  vm_compute. is_listed.
Defined.

(** The mock where everything works returns, with exits that swallow
    nothing: none of its calls raised. *)
Lemma normal_return_means_no_failure_witness :
  Forall (λ ev, raised_by ev = None) (trace Mock.run_ok).
Proof.
  apply (normal_return_means_no_failure
           (Mock.sdk Mock.no_fault Mock.resources) Mock.environ []).
  - vm_compute. repeat constructor.
  - by vm_compute.
Defined.

(** With a client whose exit swallows, the failure of the message-handling
    call of the mock ends at that exit. *)
Lemma swallowed_failure_is_not_seen_witness :
  ∃ calls manager answer,
    trace Mock.run_swallowed
    = calls ++ [EClientExit Mock.client (Some "HttpResponseError") (Returned true);
                ECredentialExit manager None answer]
    ∧ raised_by <$> last calls = Some (Some "HttpResponseError")
    ∧ outcome Mock.run_swallowed = completion (exception_of answer).
Proof.
  apply (swallowed_failure_is_not_seen
           (Mock.sdk_swallowing (Mock.fault_at Mock.OpOnMessages "HttpResponseError")
                                Mock.resources)
           Mock.environ []).
  vm_compute. is_listed.
Defined.

(** The tool of the mock is built from the id of the connection named
    "bing", also when reading its definitions fails afterwards. *)
Lemma tool_built_from_looked_up_connection_witness :
  ∃ client_manager client conn,
    EClientEnter client_manager (Returned client) ∈ trace Mock.run_no_definitions
    ∧ EConnectionsGet client (getenv Mock.environ "BING_CONNECTION_NAME" "")
        (Returned conn) ∈ trace Mock.run_no_definitions
    ∧ EConnectionId conn (Returned "/connections/bing") ∈ trace Mock.run_no_definitions.
Proof.
  apply (tool_built_from_looked_up_connection
           (Mock.sdk (Mock.fault_at Mock.OpDefinitions "AttributeError") Mock.resources)
           Mock.environ [] "/connections/bing" (Returned "/connections/bing")).
  vm_compute. is_listed.
Defined.
